(** * VivyTerm/ghostty-bridging-header.h

    A verification development for the bridging header of VivyTerm.  The
    header is embedded as its text, character for character; a lexer turns
    the text into classified lines (comments, blank lines, preprocessor
    directives, code), and a small preprocessor gives the directives their
    meaning: conditional groups, macro definitions and their replacement in
    code, [#include] and the once-only [#import].  The library headers the
    file pulls in are not part of the repository; the build that holds them
    (which file a name resolves to, and what processing a file yields) is a
    parameter of the development. *)

From Stdlib Require Import Ascii String.
From stdpp Require Import gmap strings list fin_maps.

Open Scope string_scope.
Open Scope list_scope.

(** ** The source text *)

Module Source.

Definition LF : ascii := ascii_of_nat 10.
Definition DQUOTE : ascii := ascii_of_nat 34.

Definition nl : string := String LF EmptyString.
Definition dq : string := String DQUOTE EmptyString.

(** The twenty-one lines of src/VivyTerm/ghostty-bridging-header.h, in
    order.  Line 14 carries the only two double quotes of the file. *)
Definition header_lines : list string :=
  [ "//"
  ; "//  ghostty-bridging-header.h"
  ; "//  VivyTerm"
  ; "//"
  ; "//  Bridging header to expose C APIs to Swift"
  ; "//"
  ; ""
  ; "#ifndef ghostty_bridging_header_h"
  ; "#define ghostty_bridging_header_h"
  ; ""
  ; "// Import the main Ghostty C API"
  ; "// Note: ghostty.h already includes all necessary definitions"
  ; "// Do NOT include ghostty/vt.h as it causes duplicate enum definitions"
  ; "#import " +:+ dq +:+ "../Vendor/libghostty/include/ghostty.h" +:+ dq
  ; ""
  ; "// Import libssh2 for SSH connections"
  ; "// Uses header search paths configured in Xcode build settings"
  ; "#include <libssh2.h>"
  ; "#include <libssh2_sftp.h>"
  ; ""
  ; "#endif /* ghostty_bridging_header_h */"
  ].

(** The file as stored: the lines joined by line feeds, the last line
    without a terminating line feed (571 bytes). *)
Definition header_text : string := String.concat nl header_lines.

End Source.

(** ** Lexing: lines, comments, directives *)

Module Lexer.

Definition SPACE : ascii := ascii_of_nat 32.

Definition is_space (c : ascii) : bool :=
  let n := nat_of_ascii c in
  Nat.eqb n 32 || Nat.eqb n 9 || Nat.eqb n 13 || Nat.eqb n 11 || Nat.eqb n 12.

Definition is_ident_char (c : ascii) : bool :=
  let n := nat_of_ascii c in
  (Nat.leb 65 n && Nat.leb n 90) || (Nat.leb 97 n && Nat.leb n 122)
  || (Nat.leb 48 n && Nat.leb n 57) || Nat.eqb n 95.

Definition is_digit (c : ascii) : bool :=
  let n := nat_of_ascii c in Nat.leb 48 n && Nat.leb n 57.

Definition is_slash (c : ascii) : bool := Nat.eqb (nat_of_ascii c) 47.
Definition is_star (c : ascii) : bool := Nat.eqb (nat_of_ascii c) 42.
Definition is_backslash (c : ascii) : bool := Nat.eqb (nat_of_ascii c) 92.
Definition is_dquote (c : ascii) : bool := Nat.eqb (nat_of_ascii c) 34.
Definition is_hash (c : ascii) : bool := Nat.eqb (nat_of_ascii c) 35.
Definition is_langle (c : ascii) : bool := Nat.eqb (nat_of_ascii c) 60.
Definition is_rangle (c : ascii) : bool := Nat.eqb (nat_of_ascii c) 62.
Definition is_lf (c : ascii) : bool := Nat.eqb (nat_of_ascii c) 10.
Definition is_squote (c : ascii) : bool := Nat.eqb (nat_of_ascii c) 39.
Definition is_lparen (c : ascii) : bool := Nat.eqb (nat_of_ascii c) 40.

(** Physical lines: every line feed ends a line; a last fragment that is
    not empty is a line too. *)
Fixpoint split_lines_from (cur : list ascii) (cs : list ascii) : list string :=
  match cs with
  | [] => match cur with
          | [] => []
          | _ => [string_of_list_ascii (rev cur)]
          end
  | c :: rest =>
      if is_lf c
      then string_of_list_ascii (rev cur) :: split_lines_from [] rest
      else split_lines_from (c :: cur) rest
  end.

Definition split_lines (text : string) : list string :=
  split_lines_from [] (list_ascii_of_string text).

(** Where the lexer stands: in code, inside a string literal, or inside a
    block comment.  Only a block comment survives the end of a line. *)
Inductive lex_mode := InCode | InQuote | InBlock.

Definition at_line_end (m : lex_mode) : lex_mode :=
  match m with
  | InBlock => InBlock
  | _ => InCode
  end.

(** Removes the comments of one line.  A block comment is replaced by one
    space, a line comment runs to the end of the line, and neither starts
    inside a string literal. *)
Fixpoint strip_comments (m : lex_mode) (cs : list ascii) : list ascii * lex_mode :=
  match cs with
  | [] => ([], at_line_end m)
  | c :: rest =>
      match m with
      | InBlock =>
          match rest with
          | c2 :: rest2 =>
              if is_star c && is_slash c2
              then let '(r, m') := strip_comments InCode rest2 in (SPACE :: r, m')
              else strip_comments InBlock rest
          | [] => ([], InBlock)
          end
      | InQuote =>
          match rest with
          | c2 :: rest2 =>
              if is_backslash c
              then let '(r, m') := strip_comments InQuote rest2 in (c :: c2 :: r, m')
              else if is_dquote c
              then let '(r, m') := strip_comments InCode rest in (c :: r, m')
              else let '(r, m') := strip_comments InQuote rest in (c :: r, m')
          | [] => ([c], InCode)
          end
      | InCode =>
          if is_dquote c
          then let '(r, m') := strip_comments InQuote rest in (c :: r, m')
          else
            match rest with
            | c2 :: rest2 =>
                if is_slash c && is_slash c2 then ([], InCode)
                else if is_slash c && is_star c2 then strip_comments InBlock rest2
                else let '(r, m') := strip_comments InCode rest in (c :: r, m')
            | [] => ([c], InCode)
            end
      end
  end.

(** Whitespace-separated words of a line. *)
Fixpoint words_from (cur : list ascii) (cs : list ascii) : list string :=
  let flush (k : list string) :=
    match cur with
    | [] => k
    | _ => string_of_list_ascii (rev cur) :: k
    end in
  match cs with
  | [] => flush []
  | c :: rest =>
      if is_space c then flush (words_from [] rest)
      else words_from (c :: cur) rest
  end.

Definition words (cs : list ascii) : list string := words_from [] cs.

(** The tokens of a line of code: a run of letters, digits and underscores
    is one token (an identifier or a number), a string or character literal
    is one token, and any other character that is not white space is a token
    by itself. *)
Inductive tok_state := TNone | TIdent | TStr (q : ascii) (esc : bool).

Fixpoint tokens_from (st : tok_state) (cur : list ascii) (cs : list ascii)
  : list string :=
  match cs with
  | [] => match cur with
          | [] => []
          | _ => [string_of_list_ascii (rev cur)]
          end
  | c :: rest =>
      let start (_ : unit) :=
        if is_space c then tokens_from TNone [] rest
        else if is_ident_char c then tokens_from TIdent [c] rest
        else if is_dquote c || is_squote c then tokens_from (TStr c false) [c] rest
        else string_of_list_ascii [c] :: tokens_from TNone [] rest in
      match st with
      | TStr q esc =>
          if esc then tokens_from (TStr q false) (c :: cur) rest
          else if is_backslash c then tokens_from (TStr q true) (c :: cur) rest
          else if Ascii.eqb c q
          then string_of_list_ascii (rev (c :: cur)) :: tokens_from TNone [] rest
          else tokens_from (TStr q false) (c :: cur) rest
      | TIdent =>
          if is_ident_char c then tokens_from TIdent (c :: cur) rest
          else string_of_list_ascii (rev cur) :: start tt
      | TNone => start tt
      end
  end.

Definition tokens (cs : list ascii) : list string := tokens_from TNone [] cs.

Fixpoint drop_spaces (cs : list ascii) : list ascii :=
  match cs with
  | c :: rest => if is_space c then drop_spaces rest else cs
  | [] => []
  end.

Fixpoint take_ident (cs : list ascii) : list ascii * list ascii :=
  match cs with
  | c :: rest =>
      if is_ident_char c
      then let '(i, r) := take_ident rest in (c :: i, r)
      else ([], cs)
  | [] => ([], [])
  end.

(** Splits at the first character satisfying [stop]; [None] when there is
    none. *)
Fixpoint take_until (stop : ascii -> bool) (cs : list ascii)
  : option (list ascii * list ascii) :=
  match cs with
  | [] => None
  | c :: rest =>
      if stop c then Some ([], rest)
      else match take_until stop rest with
           | Some (p, r) => Some (c :: p, r)
           | None => None
           end
  end.

(** [s] ends with [suffix]. *)
Definition ends_with (suffix s : string) : bool :=
  Nat.leb (String.length suffix) (String.length s)
  && String.eqb (String.substring (String.length s - String.length suffix)
                                  (String.length suffix) s) suffix.

Definition is_identifier (s : string) : bool :=
  match list_ascii_of_string s with
  | [] => false
  | c :: rest => is_ident_char c && negb (is_digit c) && forallb is_ident_char rest
  end.

(** A header as an inclusion directive names it: between double quotes
    (searched from the including file's directory first) or between angle
    brackets (searched on the configured paths). *)
Inductive incl_form := Quoted | Angled.

Record hdr := Hdr { form : incl_form; path : string }.

Inductive directive :=
| DIfndef (m : string)
| DIfdef (m : string)
| DElse
| DEndif
| DDefine (m : string) (body : list string)
| DUndef (m : string)
| DInclude (h : hdr)
| DImport (h : hdr)
| DOther (name : string) (rest : list string).

Inductive line_class :=
| LBlank
| LComment
| LDirective (d : directive)
| LCode (toks : list string).

(** The operand of [#include] and [#import]: a quoted or bracketed name and
    nothing after it. *)
Definition parse_header_name (cs : list ascii) : option hdr :=
  match drop_spaces cs with
  | c :: rest =>
      if is_dquote c then
        match take_until is_dquote rest with
        | Some (p, after) =>
            if forallb is_space after
            then Some (Hdr Quoted (string_of_list_ascii p)) else None
        | None => None
        end
      else if is_langle c then
        match take_until is_rangle rest with
        | Some (p, after) =>
            if forallb is_space after
            then Some (Hdr Angled (string_of_list_ascii p)) else None
        | None => None
        end
      else None
  | [] => None
  end.

(** The operand of [#define]: the macro name and its replacement tokens.
    A name followed at once by a parenthesis starts a macro with
    parameters, which is outside this model. *)
Definition parse_define (cs : list ascii) : option (string * list string) :=
  let '(m, after) := take_ident (drop_spaces cs) in
  let m := string_of_list_ascii m in
  if is_identifier m then
    match after with
    | [] => Some (m, [])
    | c :: _ => if is_space c then Some (m, tokens after) else None
    end
  else None.

(** The text after the [#] of a directive line, comments already removed. *)
Definition parse_directive (cs : list ascii) : directive :=
  let '(name, rest) := take_ident (drop_spaces cs) in
  let name := string_of_list_ascii name in
  let other := DOther name (words rest) in
  if String.eqb name "ifndef" then
    match words rest with
    | [m] => if is_identifier m then DIfndef m else other
    | _ => other
    end
  else if String.eqb name "ifdef" then
    match words rest with
    | [m] => if is_identifier m then DIfdef m else other
    | _ => other
    end
  else if String.eqb name "else" then
    match words rest with [] => DElse | _ => other end
  else if String.eqb name "endif" then
    match words rest with [] => DEndif | _ => other end
  else if String.eqb name "define" then
    match parse_define rest with
    | Some (m, body) => DDefine m body
    | None => other
    end
  else if String.eqb name "undef" then
    match words rest with
    | [m] => if is_identifier m then DUndef m else other
    | _ => other
    end
  else if String.eqb name "include" then
    match parse_header_name rest with Some h => DInclude h | None => other end
  else if String.eqb name "import" then
    match parse_header_name rest with Some h => DImport h | None => other end
  else other.

(** One line, lexed from mode [m]: its class and the mode the next line
    starts in. *)
Definition classify_line (m : lex_mode) (l : string) : line_class * lex_mode :=
  let cs := list_ascii_of_string l in
  let '(code, m') := strip_comments m cs in
  match drop_spaces code with
  | [] =>
      match m with
      | InBlock => (LComment, m')
      | _ => if forallb is_space cs then (LBlank, m') else (LComment, m')
      end
  | c :: rest =>
      if is_hash c then (LDirective (parse_directive rest), m')
      else (LCode (tokens code), m')
  end.

Fixpoint classify_lines (m : lex_mode) (ls : list string) : list line_class :=
  match ls with
  | [] => []
  | l :: rest =>
      let '(c, m') := classify_line m l in c :: classify_lines m' rest
  end.

(** The mode in which the text after [ls] would be lexed. *)
Fixpoint mode_after (m : lex_mode) (ls : list string) : lex_mode :=
  match ls with
  | [] => m
  | l :: rest => mode_after (snd (classify_line m l)) rest
  end.

Definition parse_file (text : string) : list line_class :=
  classify_lines InCode (split_lines text).

End Lexer.

(** ** Preprocessing *)

Module Preproc.

Import Lexer.

#[global] Instance incl_form_eq_dec : EqDecision incl_form.
Proof. solve_decision. Defined.

#[global] Instance hdr_eq_dec : EqDecision hdr.
Proof. solve_decision. Defined.

#[global] Instance directive_eq_dec : EqDecision directive.
Proof. solve_decision. Defined.

#[global] Instance line_class_eq_dec : EqDecision line_class.
Proof. solve_decision. Defined.

Definition hdr_to_pair (h : hdr) : bool * string :=
  (match form h with Quoted => true | Angled => false end, path h).

Definition hdr_of_pair (p : bool * string) : hdr :=
  Hdr (if p.1 then Quoted else Angled) p.2.

#[global] Instance hdr_countable : Countable hdr.
Proof.
  refine (inj_countable' hdr_to_pair hdr_of_pair _).
  intros [[] p]; reflexivity.
Defined.

(** What the preprocessor knows between two lines: the macro table (a name
    and its replacement tokens), the files entered so far, and the files an
    [#import] has marked as once-only.  A file is known by the path the
    search resolved its name to, not by the spelling of the name. *)
Record pp_env := PpEnv {
  macros : gmap string (list string);
  seen : gset string;
  once : gset string
}.

Definition symbol := string.

(** The library headers are outside the repository; the build that holds
    them is a parameter.  [locate] is the search: the file a header name
    resolves to, if it is found.  [content] is the processing of the body of
    a file in an environment: it fails, or yields the environment it leaves
    and the symbols it declares there. *)
Record library := Library {
  locate : hdr -> option string;
  content : string -> pp_env -> option (pp_env * list symbol)
}.

(** What reaches the translation unit: a symbol declared by a header that
    was brought in, or a line of code of the file itself. *)
Inductive item :=
| FromHeader (h : hdr) (s : symbol)
| Own (toks : list string).

Record tu_state := TU { env : pp_env; out : list item }.

Definition defined (m : string) (e : pp_env) : bool :=
  bool_decide (is_Some (macros e !! m)).

Definition define (m : string) (body : list string) (e : pp_env) : pp_env :=
  PpEnv (<[m := body]> (macros e)) (seen e) (once e).

Definition undef (m : string) (e : pp_env) : pp_env :=
  PpEnv (delete m (macros e)) (seen e) (once e).

Definition mark_seen (f : string) (e : pp_env) : pp_env :=
  PpEnv (macros e) ({[f]} ∪ seen e) (once e).

Definition mark_once (f : string) (e : pp_env) : pp_env :=
  PpEnv (macros e) (seen e) ({[f]} ∪ once e).

(** Bringing in a header.  The name is resolved first, and a name that is
    not found is an error.  [#import] marks the file once-only and enters
    it unless it was entered before; [#include] enters it unless an
    [#import] marked it.  A file that is not entered contributes nothing. *)
Definition bring (lib : library) (import : bool) (h : hdr) (e : pp_env)
  : option (pp_env * list symbol) :=
  match locate lib h with
  | None => None
  | Some f =>
      if import then
        if decide (f ∈ seen e) then Some (mark_once f e, [])
        else content lib f (mark_seen f (mark_once f e))
      else
        if decide (f ∈ once e) then Some (e, [])
        else content lib f (mark_seen f e)
  end.

Arguments bring : simpl never.

Definition tag (h : hdr) (d : list symbol) : list item := FromHeader h <$> d.

Definition include_header (lib : library) (import : bool) (h : hdr) (s : tu_state)
  : option tu_state :=
  '(e, d) ← bring lib import h (env s);
  Some (TU e (out s ++ tag h d)).

(** Macro replacement in a line of code.  A token that names a macro is
    replaced by the macro's replacement tokens, which are scanned again with
    that macro out of the table (a macro is not replaced inside its own
    replacement).  Every nested replacement removes a name, so [size m]
    levels are the most there can be. *)
Fixpoint expand (k : nat) (m : gmap string (list string)) (toks : list string)
  : list string :=
  match k with
  | 0 => toks
  | S k' =>
      flat_map (fun t => match m !! t with
                         | Some body => expand k' (delete t m) body
                         | None => [t]
                         end) toks
  end.

Definition expand_line (e : pp_env) (toks : list string) : list string :=
  expand (S (size (macros e))) (macros e) toks.

(** An open conditional group: whether its lines are processed, and whether
    its [#else] has been passed. *)
Record group := Group { live : bool; else_seen : bool }.

Definition active (cs : list group) : bool :=
  match cs with
  | [] => true
  | g :: _ => live g
  end.

Definition exec_directive (lib : library) (d : directive) (cs : list group) (s : tu_state)
  : option (list group * tu_state) :=
  match d with
  | DIfndef m => Some (Group (active cs && negb (defined m (env s))) false :: cs, s)
  | DIfdef m => Some (Group (active cs && defined m (env s)) false :: cs, s)
  | DElse =>
      match cs with
      | g :: cs' =>
          if else_seen g then None
          else Some (Group (active cs' && negb (live g)) true :: cs', s)
      | [] => None
      end
  | DEndif =>
      match cs with
      | _ :: cs' => Some (cs', s)
      | [] => None
      end
  | DDefine m body =>
      if active cs then Some (cs, TU (define m body (env s)) (out s)) else Some (cs, s)
  | DUndef m =>
      if active cs then Some (cs, TU (undef m (env s)) (out s)) else Some (cs, s)
  | DInclude h =>
      if active cs then s' ← include_header lib false h s; Some (cs, s')
      else Some (cs, s)
  | DImport h =>
      if active cs then s' ← include_header lib true h s; Some (cs, s')
      else Some (cs, s)
  | DOther _ _ => None   (* a directive outside this model: no result *)
  end.

Definition exec_line (lib : library) (l : line_class) (cs : list group) (s : tu_state)
  : option (list group * tu_state) :=
  match l with
  | LBlank | LComment => Some (cs, s)
  | LDirective d => exec_directive lib d cs s
  | LCode toks =>
      if active cs
      then Some (cs, TU (env s) (out s ++ [Own (expand_line (env s) toks)]))
      else Some (cs, s)
  end.

Fixpoint run_lines (lib : library) (ls : list line_class) (cs : list group) (s : tu_state)
  : option (list group * tu_state) :=
  match ls with
  | [] => Some (cs, s)
  | l :: rest => '(cs', s') ← exec_line lib l cs s; run_lines lib rest cs' s'
  end.

(** A file is processed with no conditional group open and must leave none
    open. *)
Definition run_file (lib : library) (ls : list line_class) (s : tu_state)
  : option tu_state :=
  '(cs, s') ← run_lines lib ls [] s;
  match cs with
  | [] => Some s'
  | _ => None
  end.

(** Textual inclusion of the same file [n] times in a row. *)
Fixpoint include_times (lib : library) (ls : list line_class) (n : nat) (s : tu_state)
  : option tu_state :=
  match n with
  | 0 => Some s
  | S k => s' ← run_file lib ls s; include_times lib ls k s'
  end.

(** A library in which every header is found and is empty: what is left
    of a run is then the contribution of the including file alone. *)
Definition null_library : library :=
  Library (fun h => Some (path h)) (fun _ e => Some (e, [])).

(** *** What a file contains, read off its lines *)

Definition directives (ls : list line_class) : list directive :=
  omap (fun l => match l with LDirective d => Some d | _ => None end) ls.

Definition own_code (ls : list line_class) : list (list string) :=
  omap (fun l => match l with LCode t => Some t | _ => None end) ls.

Definition direct_includes (ls : list line_class) : list hdr :=
  omap (fun d => match d with
                 | DInclude h | DImport h => Some h
                 | _ => None
                 end) (directives ls).

Definition macro_definitions (ls : list line_class) : list (string * list string) :=
  omap (fun d => match d with DDefine m b => Some (m, b) | _ => None end)
       (directives ls).

Definition own_items (its : list item) : list (list string) :=
  omap (fun i => match i with Own t => Some t | _ => None end) its.

Definition is_inclusion (d : directive) : bool :=
  match d with
  | DInclude _ | DImport _ => true
  | _ => false
  end.

Definition is_hash_include (d : directive) : bool :=
  match d with
  | DInclude _ => true
  | _ => false
  end.

(** The three lines of an include guard on macro [g]. *)
Definition is_guard_directive (g : string) (d : directive) : bool :=
  bool_decide (d = DIfndef g) || bool_decide (d = DDefine g []) || bool_decide (d = DEndif).

(** A line that holds nothing to execute: no code, and no macro body. *)
Definition is_declarative (l : line_class) : bool :=
  match l with
  | LBlank | LComment => true
  | LDirective (DDefine _ body) => bool_decide (body = [])
  | LDirective (DOther _ _) => false
  | LDirective _ => true
  | LCode _ => false
  end.

End Preproc.

(** ** The bridging header *)

Module Bridging.

Import Source Lexer Preproc.

Definition header : list line_class := parse_file header_text.

Definition guard : string := "ghostty_bridging_header_h".

Definition ghostty_h : hdr := Hdr Quoted "../Vendor/libghostty/include/ghostty.h".
Definition libssh2_h : hdr := Hdr Angled "libssh2.h".
Definition libssh2_sftp_h : hdr := Hdr Angled "libssh2_sftp.h".

(** A stand-in library for concrete runs: every header is found, under
    its own path, and its file declares one symbol named after it. *)
Definition demo_library : library :=
  Library (fun h => Some (path h)) (fun f e => Some (e, [f])).

(** A build in which ghostty.h is also reachable as [<ghostty.h>]: both
    names resolve to the same file. *)
Definition vendor_library : library :=
  Library (fun h => if decide (h = ghostty_h \/ h = Hdr Angled "ghostty.h")
                    then Some "Vendor/libghostty/include/ghostty.h"
                    else Some (path h))
          (fun f e => Some (e, [f])).

(** The same build with a ghostty.h whose body cannot be processed. *)
Definition vendor_library_broken : library :=
  Library (locate vendor_library)
          (fun f e => if decide (f = "Vendor/libghostty/include/ghostty.h")
                      then None else Some (e, [f])).

(** The directives of a file that are not part of the include guard. *)
Definition non_guard_directives (ls : list line_class) : list directive :=
  List.filter (fun d => negb (is_guard_directive guard d)) (directives ls).

(** The headers the file brings in leave the guard macro defined. *)
Definition keeps_guard (lib : library) : Prop :=
  forall h f e e' d,
    h ∈ direct_includes header ->
    locate lib h = Some f ->
    is_Some (macros e !! guard) ->
    content lib f e = Some (e', d) -> is_Some (macros e' !! guard).


(** Header [h] is absent from the build: the search does not find it. *)
Definition absent (lib : library) (h : hdr) : Prop :=
  locate lib h = None.

(** A build that lacks libssh2_sftp.h; the other headers are empty. *)
Definition library_without_sftp : library :=
  Library (fun h => if decide (h = libssh2_sftp_h) then None else Some (path h))
          (fun _ e => Some (e, [])).

(** A build that lacks every header. *)
Definition no_library : library := Library (fun _ => None) (fun _ _ => None).





Definition empty_env : pp_env := PpEnv ∅ ∅ ∅.
Definition start : tu_state := TU empty_env [].

(** The state of a unit that has defined the guard macro itself. *)
Definition guard_predefined : tu_state := TU (define guard [] empty_env) [].

(** The state of a unit that has entered ghostty.h before. *)
Definition ghostty_entered : tu_state :=
  TU (mark_seen "Vendor/libghostty/include/ghostty.h" empty_env) [].

End Bridging.

Import Source Lexer Preproc Bridging.

(** ** The text and its lines *)

Lemma header_text_length : String.length header_text = 571.
Proof. vm_compute. reflexivity. Qed.

Lemma header_split : split_lines header_text = header_lines.
Proof. vm_compute. reflexivity. Qed.

(** The file, line by line, as the lexer reads it. *)
Lemma header_parsed :
  header =
  [ LComment; LComment; LComment; LComment; LComment; LComment
  ; LBlank
  ; LDirective (DIfndef guard)
  ; LDirective (DDefine guard [])
  ; LBlank
  ; LComment; LComment; LComment
  ; LDirective (DImport ghostty_h)
  ; LBlank
  ; LComment; LComment
  ; LDirective (DInclude libssh2_h)
  ; LDirective (DInclude libssh2_sftp_h)
  ; LBlank
  ; LDirective DEndif ].
Proof. vm_compute. reflexivity. Qed.

Lemma header_lines_classified : classify_lines InCode header_lines = header.
Proof. rewrite <- header_split. reflexivity. Qed.

Lemma header_mode_after : mode_after InCode header_lines = InCode.
Proof. vm_compute. reflexivity. Qed.

(** ** The lexer and the preprocessor on other inputs *)

Example lex_code_and_comments :
  classify_lines InCode
    ["int x; // counter"; "/* open"; "still */ y = 1;"; "  "; "#undef X"]
  = [LCode ["int"; "x"; ";"]; LComment; LCode ["y"; "="; "1"; ";"]; LBlank;
     LDirective (DUndef "X")].
Proof. vm_compute. reflexivity. Qed.

Example lex_comment_marks_inside_string :
  classify_lines InCode ["s = " +:+ dq +:+ "// no comment" +:+ dq +:+ ";"]
  = [LCode ["s"; "="; dq +:+ "// no comment" +:+ dq; ";"]].
Proof. vm_compute. reflexivity. Qed.

Example lex_include_with_trailing_text :
  classify_lines InCode ["#include <a.h> x"; "#define N (4+1)"; "#if N"; "#define F(x) x"]
  = [LDirective (DOther "include" ["<a.h>"; "x"]);
     LDirective (DDefine "N" ["("; "4"; "+"; "1"; ")"]);
     LDirective (DOther "if" ["N"]);
     LDirective (DOther "define" ["F(x)"; "x"])].
Proof. vm_compute. reflexivity. Qed.

Example run_code_line :
  out <$> run_file demo_library (classify_lines InCode ["int x;"]) start
  = Some [Own ["int"; "x"; ";"]].
Proof. vm_compute. reflexivity. Qed.

Example run_macro_replacement :
  out <$> run_file demo_library
            (classify_lines InCode
               ["#define N 4"; "#define M N+N"; "#define E"; "#define X X+1";
                "int a[M]; E f(X);"]) start
  = Some [Own ["int"; "a"; "["; "4"; "+"; "4"; "]"; ";"; "f"; "("; "X"; "+"; "1"; ")"; ";"]].
Proof. vm_compute. reflexivity. Qed.

Example run_unterminated_conditional :
  run_file demo_library (classify_lines InCode ["#ifndef G"; "#define G"]) start = None.
Proof. vm_compute. reflexivity. Qed.

Example run_else_branch :
  out <$> run_file demo_library
            (classify_lines InCode ["#ifdef G"; "a"; "#else"; "b"; "#endif"]) start
  = Some [Own ["b"]].
Proof. vm_compute. reflexivity. Qed.

(** A build without libssh2_sftp.h: processing the header fails. *)
Example run_header_missing_library :
  run_file library_without_sftp header start = None.
Proof. vm_compute. reflexivity. Qed.

Example run_header_demo :
  out <$> run_file demo_library header start
  = Some [FromHeader ghostty_h "../Vendor/libghostty/include/ghostty.h";
          FromHeader libssh2_h "libssh2.h";
          FromHeader libssh2_sftp_h "libssh2_sftp.h"].
Proof. vm_compute. reflexivity. Qed.

(** The once-only rule follows the file, not the spelling: after
    [#include <ghostty.h>] the header does not enter ghostty.h again. *)
Example run_header_after_other_spelling :
  out <$> run_file vendor_library
            (classify_lines InCode ["#include <ghostty.h>"] ++ header) start
  = Some [FromHeader (Hdr Angled "ghostty.h") "Vendor/libghostty/include/ghostty.h";
          FromHeader libssh2_h "libssh2.h";
          FromHeader libssh2_sftp_h "libssh2_sftp.h"].
Proof. vm_compute. reflexivity. Qed.

(** The guard macro is defined to nothing: in code after the header its
    name is replaced by no token at all. *)
Example run_guard_token_vanishes :
  out <$> run_file demo_library
            (header ++ classify_lines InCode ["int ghostty_bridging_header_h x;"])
            guard_predefined
  = Some [Own ["int"; "x"; ";"]].
Proof. vm_compute. reflexivity. Qed.

(** ** Lexing a concatenation *)

Lemma classify_lines_app (m : lex_mode) (l1 l2 : list string) :
  classify_lines m (l1 ++ l2) =
  classify_lines m l1 ++ classify_lines (mode_after m l1) l2.
Proof.
  revert m. induction l1 as [|l l1 IH]; intros m; simpl.
  - reflexivity.
  - destruct (classify_line m l) as [c m'] eqn:E. simpl. now rewrite IH.
Qed.

Lemma own_code_app (a b : list line_class) :
  own_code (a ++ b) = own_code a ++ own_code b.
Proof. unfold own_code. apply omap_app. Qed.

Lemma own_items_app (a b : list item) :
  own_items (a ++ b) = own_items a ++ own_items b.
Proof. unfold own_items. apply omap_app. Qed.

Lemma own_items_tag (h : hdr) (d : list symbol) : own_items (tag h d) = [].
Proof. induction d as [|x d IH]; [reflexivity | exact IH]. Qed.

(** ** Running the header *)

Lemma defined_true (m : string) (e : pp_env) :
  is_Some (macros e !! m) -> defined m e = true.
Proof. intros H. unfold defined. now apply bool_decide_eq_true. Qed.

Lemma defined_false (m : string) (e : pp_env) :
  macros e !! m = None -> defined m e = false.
Proof.
  intros H. unfold defined. apply bool_decide_eq_false.
  rewrite H. apply is_Some_None.
Qed.

(** With the guard defined, every line between [#ifndef] and [#endif] is
    skipped. *)
Lemma run_header_guarded (lib : library) (s : tu_state) :
  is_Some (macros (env s) !! guard) -> run_file lib header s = Some s.
Proof.
  intros H. rewrite header_parsed. unfold run_file. simpl.
  rewrite (defined_true _ _ H). reflexivity.
Qed.

(** With the guard undefined, the file defines it and brings in its three
    headers, in order. *)
Lemma run_header_fresh (lib : library) (s : tu_state) :
  macros (env s) !! guard = None ->
  run_file lib header s =
  (s1 ← include_header lib true ghostty_h (TU (define guard [] (env s)) (out s));
   s2 ← include_header lib false libssh2_h s1;
   include_header lib false libssh2_sftp_h s2).
Proof.
  intros H. rewrite header_parsed. unfold run_file. simpl.
  rewrite (defined_false _ _ H). simpl.
  destruct (include_header lib true ghostty_h _) as [s1|]; simpl; [|reflexivity].
  destruct (include_header lib false libssh2_h s1) as [s2|]; simpl; [|reflexivity].
  destruct (include_header lib false libssh2_sftp_h s2) as [s3|]; reflexivity.
Qed.

Lemma header_direct_includes :
  direct_includes header = [ghostty_h; libssh2_h; libssh2_sftp_h].
Proof. rewrite header_parsed. reflexivity. Qed.

Lemma header_own_code : own_code header = [].
Proof. rewrite header_parsed. reflexivity. Qed.

Lemma include_header_out (lib : library) (imp : bool) (h : hdr) (s s' : tu_state) :
  include_header lib imp h s = Some s' ->
  exists d, out s' = out s ++ tag h d.
Proof.
  unfold include_header. destruct (bring lib imp h (env s)) as [[e d]|]; simpl.
  - intros [= <-]. exists d. reflexivity.
  - discriminate.
Qed.

(** Whatever the library, a run of the header appends library symbols only. *)
Lemma run_header_out (lib : library) (s s' : tu_state) :
  run_file lib header s = Some s' ->
  exists d1 d2 d3,
    out s' = out s ++ tag ghostty_h d1 ++ tag libssh2_h d2 ++ tag libssh2_sftp_h d3.
Proof.
  destruct (macros (env s) !! guard) as [b|] eqn:G.
  - rewrite run_header_guarded by (rewrite G; eauto).
    intros [= <-]. exists [], [], []. simpl. now rewrite app_nil_r.
  - rewrite (run_header_fresh _ _ G).
    destruct (include_header lib true ghostty_h _) as [s1|] eqn:E1; simpl; [|discriminate].
    destruct (include_header lib false libssh2_h s1) as [s2|] eqn:E2; simpl; [|discriminate].
    intros E3.
    apply include_header_out in E1 as [d1 H1].
    apply include_header_out in E2 as [d2 H2].
    apply include_header_out in E3 as [d3 H3].
    exists d1, d2, d3. rewrite H3, H2, H1. simpl. now rewrite <- !app_assoc.
Qed.

Lemma run_header_own_items (lib : library) (s s' : tu_state) :
  run_file lib header s = Some s' -> own_items (out s') = own_items (out s).
Proof.
  intros H. apply run_header_out in H as (d1 & d2 & d3 & ->).
  rewrite !own_items_app, !own_items_tag. now rewrite !app_nil_r.
Qed.

(** With empty library headers the run always succeeds, adds nothing to the
    unit, and touches the macro table only to define the guard. *)
Lemma run_header_null (s : tu_state) :
  exists e',
    run_file null_library header s = Some (TU e' (out s))
    /\ macros e' = if defined guard (env s) then macros (env s)
                   else <[guard := []]> (macros (env s)).
Proof.
  destruct (macros (env s) !! guard) as [b|] eqn:G.
  - rewrite run_header_guarded by (rewrite G; eauto).
    rewrite defined_true by (rewrite G; eauto).
    exists (env s). now destruct s.
  - rewrite (run_header_fresh _ _ G), (defined_false _ _ G).
    unfold include_header, bring, null_library. simpl.
    repeat (case_decide; simpl); rewrite ?app_nil_r;
      eexists; (split; [reflexivity | reflexivity]).
Qed.


(** A first inclusion in a build that has the three headers: each name is
    found, each file is entered and its body is processed. *)
Lemma run_header_first (lib : library) (s : tu_state) (f1 f2 f3 : string)
      (e1 e2 e3 : pp_env) (d1 d2 d3 : list symbol) :
  macros (env s) !! guard = None ->
  locate lib ghostty_h = Some f1 -> f1 ∉ seen (env s) ->
  content lib f1 (mark_seen f1 (mark_once f1 (define guard [] (env s)))) = Some (e1, d1) ->
  locate lib libssh2_h = Some f2 -> f2 ∉ once e1 ->
  content lib f2 (mark_seen f2 e1) = Some (e2, d2) ->
  locate lib libssh2_sftp_h = Some f3 -> f3 ∉ once e2 ->
  content lib f3 (mark_seen f3 e2) = Some (e3, d3) ->
  run_file lib header s =
    Some (TU e3 (out s ++ (FromHeader ghostty_h <$> d1)
                       ++ (FromHeader libssh2_h <$> d2)
                       ++ (FromHeader libssh2_sftp_h <$> d3))).
Proof.
  intros G L1 S1 C1 L2 O2 C2 L3 O3 C3.
  rewrite (run_header_fresh _ _ G). unfold include_header, bring. simpl.
  rewrite L1. rewrite decide_False by exact S1. rewrite C1. simpl.
  rewrite L2. rewrite decide_False by exact O2. rewrite C2. simpl.
  rewrite L3. rewrite decide_False by exact O3. rewrite C3. simpl.
  unfold tag. now rewrite <- !app_assoc.
Qed.

(** ** What the header makes available *)

(** C1, as stated, fails.  In a unit that has defined the guard macro
    itself, including the header succeeds and makes nothing available,
    although ghostty.h is found in the build and declares a symbol in every
    environment.  And in a unit that has entered ghostty.h before, the
    header adds the symbols of libssh2.h and libssh2_sftp.h only. *)
Lemma header_exports_nothing_when_guard_predefined :
  (locate demo_library ghostty_h = Some "../Vendor/libghostty/include/ghostty.h"
   /\ (forall e, content demo_library "../Vendor/libghostty/include/ghostty.h" e
                 = Some (e, ["../Vendor/libghostty/include/ghostty.h"]))
   /\ run_file demo_library header guard_predefined = Some guard_predefined
   /\ out guard_predefined = [])
  /\ out <$> run_file vendor_library header ghostty_entered
     = Some [FromHeader libssh2_h "libssh2.h";
             FromHeader libssh2_sftp_h "libssh2_sftp.h"].
Proof.
  split; [|vm_compute; reflexivity].
  split; [reflexivity|]. split; [intros e; reflexivity|].
  split; [|reflexivity]. apply run_header_guarded. vm_compute. eauto.
Qed.

(** C1, amended.  Included in a unit where its guard macro is not yet
    defined, in a build where the three names are found and each file is
    entered (ghostty.h was not entered before, libssh2.h and libssh2_sftp.h
    are not marked once-only) and processed, the header succeeds and the
    unit gains exactly the symbols the three files declare there, each under
    the header that brought it, in the order ghostty.h, libssh2.h,
    libssh2_sftp.h.  Nothing else is added: the file has no line of code,
    and the guard is the one macro it defines. *)
Theorem header_exports_library_symbols
        (lib : library) (s : tu_state) (f1 f2 f3 : string)
        (e1 e2 e3 : pp_env) (d1 d2 d3 : list symbol) :
  macros (env s) !! guard = None ->
  locate lib ghostty_h = Some f1 -> f1 ∉ seen (env s) ->
  content lib f1 (mark_seen f1 (mark_once f1 (define guard [] (env s)))) = Some (e1, d1) ->
  locate lib libssh2_h = Some f2 -> f2 ∉ once e1 ->
  content lib f2 (mark_seen f2 e1) = Some (e2, d2) ->
  locate lib libssh2_sftp_h = Some f3 -> f3 ∉ once e2 ->
  content lib f3 (mark_seen f3 e2) = Some (e3, d3) ->
  run_file lib header s =
    Some (TU e3 (out s ++ (FromHeader ghostty_h <$> d1)
                       ++ (FromHeader libssh2_h <$> d2)
                       ++ (FromHeader libssh2_sftp_h <$> d3)))
  /\ own_code header = []
  /\ macro_definitions header = [(guard, [])].
Proof.
  intros G L1 S1 C1 L2 O2 C2 L3 O3 C3. split; [|split].
  - exact (run_header_first lib s f1 f2 f3 e1 e2 e3 d1 d2 d3 G L1 S1 C1 L2 O2 C2 L3 O3 C3).
  - apply header_own_code.
  - rewrite header_parsed. reflexivity.
Qed.

Lemma header_exports_library_symbols_witness :
  run_file demo_library header start =
    Some (TU (mark_seen "libssh2_sftp.h"
                (mark_seen "libssh2.h"
                   (mark_seen "../Vendor/libghostty/include/ghostty.h"
                      (mark_once "../Vendor/libghostty/include/ghostty.h"
                         (define guard [] empty_env)))))
             ([] ++ (FromHeader ghostty_h <$> ["../Vendor/libghostty/include/ghostty.h"])
                 ++ (FromHeader libssh2_h <$> ["libssh2.h"])
                 ++ (FromHeader libssh2_sftp_h <$> ["libssh2_sftp.h"])))
  /\ own_code header = []
  /\ macro_definitions header = [(guard, [])].
Proof.
  eapply (header_exports_library_symbols demo_library start
            "../Vendor/libghostty/include/ghostty.h" "libssh2.h" "libssh2_sftp.h").
  - reflexivity.
  - reflexivity.
  - simpl. apply not_elem_of_empty.
  - reflexivity.
  - reflexivity.
  - simpl. intros [H%elem_of_singleton|H%elem_of_empty]%elem_of_union;
      [discriminate H | exact H].
  - reflexivity.
  - reflexivity.
  - simpl. intros [H%elem_of_singleton|H%elem_of_empty]%elem_of_union;
      [discriminate H | exact H].
  - reflexivity.
Defined.

(** C2.  Every line of the file is blank, a comment, one of the three
    include-guard directives, or an inclusion of a header; the headers
    included are external (none is the file itself); and the file has no
    line of code, so it declares no entity of its own. *)
Theorem header_declares_nothing :
  Forall (fun l => l = LBlank \/ l = LComment \/
                   exists d, l = LDirective d /\
                             (is_guard_directive guard d = true \/ is_inclusion d = true))
         header
  /\ Forall (fun h => ends_with "ghostty-bridging-header.h" (path h) = false)
            (direct_includes header)
  /\ own_code header = [].
Proof.
  rewrite header_parsed. split; [|split; [|reflexivity]].
  - repeat (apply Forall_cons; split;
            [ first [ left; reflexivity
                    | right; left; reflexivity
                    | right; right; eexists; split;
                      [reflexivity | first [left; reflexivity | right; reflexivity]] ] |]).
    apply Forall_nil. exact I.
  - repeat (apply Forall_cons; split; [reflexivity |]). apply Forall_nil. exact I.
Qed.

(** C3, as stated, fails: line 14 is a directive outside the include guard
    and is an [#import], not an [#include]; and however inclusion is counted,
    the directives outside the guard are three, so no two directives cover
    them. *)
Lemma header_not_two_includes :
  (DImport ghostty_h ∈ directives header
   /\ is_guard_directive guard (DImport ghostty_h) = false
   /\ is_hash_include (DImport ghostty_h) = false)
  /\ ~ (exists d1 d2, forall d, d ∈ directives header ->
                        is_guard_directive guard d = false -> d = d1 \/ d = d2).
Proof.
  rewrite header_parsed. split.
  - split; [|split; reflexivity]. simpl. do 2 right. left.
  - intros (d1 & d2 & H). simpl in H.
    assert (H1 : DImport ghostty_h = d1 \/ DImport ghostty_h = d2)
      by (apply H; [do 2 right; left | reflexivity]).
    assert (H2 : DInclude libssh2_h = d1 \/ DInclude libssh2_h = d2)
      by (apply H; [do 3 right; left | reflexivity]).
    assert (H3 : DInclude libssh2_sftp_h = d1 \/ DInclude libssh2_sftp_h = d2)
      by (apply H; [do 4 right; left | reflexivity]).
    unfold ghostty_h, libssh2_h, libssh2_sftp_h in *.
    destruct H1 as [H1|H1], H2 as [H2|H2], H3 as [H3|H3]; congruence.
Qed.

(** C3, amended.  Outside the include guard the file has exactly three
    directives, all inclusions of a header: one [#import] (ghostty.h) and two
    [#include] (libssh2.h and libssh2_sftp.h). *)
Theorem header_three_inclusions :
  non_guard_directives header =
    [DImport ghostty_h; DInclude libssh2_h; DInclude libssh2_sftp_h]
  /\ List.filter is_hash_include (directives header) =
       [DInclude libssh2_h; DInclude libssh2_sftp_h].
Proof. rewrite header_parsed. split; reflexivity. Qed.

(** ** No logic of its own *)

(** C4.  Taken alone, the file is the empty program: it has the code lines
    of the empty file (none); with library headers that are empty, a run of
    the file always ends and hands the unit what a run of the empty file
    hands it; and with any library, a run adds no code of the file's own to
    the unit. *)
Theorem header_is_empty_program :
  own_code header = own_code (parse_file "")
  /\ (forall s : tu_state,
        out <$> run_file null_library header s = Some (out s)
        /\ out <$> run_file null_library (parse_file "") s = Some (out s))
  /\ (forall (lib : library) (s : tu_state),
        from_option (fun s' => own_items (out s')) (own_items (out s))
                    (run_file lib header s)
        = own_items (out s)).
Proof.
  split; [|split].
  - rewrite header_own_code. reflexivity.
  - intros s. split; [|reflexivity].
    destruct (run_header_null s) as (e' & -> & _). reflexivity.
  - intros lib s.
    destruct (run_file lib header s) as [s'|] eqn:E; simpl; [|reflexivity].
    now apply run_header_own_items in E.
Qed.

(** ** The header in front of the text of a unit *)

Lemma list_ascii_of_append (a b : string) :
  list_ascii_of_string (a +:+ b) = list_ascii_of_string a ++ list_ascii_of_string b.
Proof. induction a as [|c a IH]; simpl; [reflexivity | now rewrite IH]. Qed.

Lemma split_lines_from_feed (cur a b : list ascii) :
  split_lines_from cur (a ++ LF :: b)
  = split_lines_from cur (a ++ [LF]) ++ split_lines_from [] b.
Proof.
  revert cur. induction a as [|c a IH]; intros cur; simpl.
  - reflexivity.
  - destruct (is_lf c); simpl; now rewrite IH.
Qed.

Lemma run_lines_app (lib : library) (a b : list line_class) (cs : list group)
      (s : tu_state) :
  run_lines lib (a ++ b) cs s
  = run_lines lib a cs s ≫= (fun r => run_lines lib b r.1 r.2).
Proof.
  revert cs s. induction a as [|l a IH]; intros cs s; simpl; [reflexivity|].
  destruct (exec_line lib l cs s) as [[cs' s']|]; simpl; [apply IH | reflexivity].
Qed.

(** The header closes the one conditional group it opens. *)
Lemma run_lines_header (lib : library) (s : tu_state) :
  run_lines lib header [] s = (fun s' => ([], s')) <$> run_file lib header s.
Proof.
  unfold run_file.
  destruct (run_lines lib header [] s) as [[cs s']|] eqn:E; simpl; [|reflexivity].
  destruct cs as [|g cs]; [reflexivity|]. exfalso.
  revert E. rewrite header_parsed. simpl.
  destruct (defined guard (env s)); simpl.
  - discriminate.
  - destruct (include_header lib true ghostty_h _) as [s1|]; simpl; [|discriminate].
    destruct (include_header lib false libssh2_h s1) as [s2|]; simpl; [|discriminate].
    destruct (include_header lib false libssh2_sftp_h s2) as [s3|]; simpl; discriminate.
Qed.


(** The header leaves no comment and no string open: the text after it is
    lexed on its own. *)
Lemma parse_file_after_header (t : string) :
  parse_file (header_text +:+ nl +:+ t) = header ++ parse_file t.
Proof.
  unfold parse_file at 1. unfold split_lines.
  rewrite list_ascii_of_append.
  change (list_ascii_of_string (nl +:+ t)) with (LF :: list_ascii_of_string t).
  rewrite split_lines_from_feed.
  replace (split_lines_from [] (list_ascii_of_string header_text ++ [LF]))
    with header_lines by (vm_compute; reflexivity).
  rewrite classify_lines_app, header_mode_after, header_lines_classified.
  reflexivity.
Qed.

(** The header leaves no conditional group open: the lines after it are
    processed as a file of their own. *)
Lemma run_file_after_header (lib : library) (ls : list line_class) (s : tu_state) :
  run_file lib (header ++ ls) s = run_file lib header s ≫= run_file lib ls.
Proof.
  unfold run_file at 1.
  rewrite run_lines_app, run_lines_header.
  destruct (run_file lib header s) as [s'|]; reflexivity.
Qed.

(** ** Units that do not refer to the guard macro *)













(** C6.  The file has twenty-one lines, and each of them is blank, a
    comment or a directive without a macro body: no line holds a statement
    or an expression. *)
Theorem header_is_21_declarative_lines :
  length (split_lines header_text) = 21
  /\ length header = 21
  /\ Forall (fun l => is_declarative l = true) header
  /\ Forall (fun l => forall toks, l <> LCode toks) header.
Proof.
  rewrite header_split, header_parsed.
  split; [reflexivity | split; [reflexivity | split]].
  - repeat (apply Forall_cons; split; [reflexivity |]). apply Forall_nil. exact I.
  - repeat (apply Forall_cons; split; [discriminate |]). apply Forall_nil. exact I.
Qed.

(** ** Processing succeeds when the library headers are there *)




(** ** The include guard *)

Lemma bring_keeps_guard (lib : library) (imp : bool) (h : hdr) (e e' : pp_env)
      (d : list symbol) :
  keeps_guard lib -> h ∈ direct_includes header ->
  is_Some (macros e !! guard) ->
  bring lib imp h e = Some (e', d) -> is_Some (macros e' !! guard).
Proof.
  intros K Hh G. unfold bring.
  destruct (locate lib h) as [f|] eqn:L; [|discriminate].
  destruct imp; case_decide.
  - intros [= <- _]. exact G.
  - apply (K h f); [exact Hh | exact L | exact G].
  - intros [= <- _]. exact G.
  - apply (K h f); [exact Hh | exact L | exact G].
Qed.

(** After a run the guard is defined, if the library headers leave it so. *)
Lemma run_header_defines_guard (lib : library) (s s' : tu_state) :
  keeps_guard lib ->
  run_file lib header s = Some s' -> is_Some (macros (env s') !! guard).
Proof.
  intros K.
  destruct (macros (env s) !! guard) as [b|] eqn:G.
  - rewrite run_header_guarded by (rewrite G; eauto).
    intros [= <-]. rewrite G. eauto.
  - rewrite (run_header_fresh _ _ G). unfold include_header. simpl.
    destruct (bring lib true ghostty_h _) as [[e1 d1]|] eqn:B1; simpl; [|discriminate].
    destruct (bring lib false libssh2_h e1) as [[e2 d2]|] eqn:B2; simpl; [|discriminate].
    destruct (bring lib false libssh2_sftp_h e2) as [[e3 d3]|] eqn:B3; simpl;
      [|discriminate].
    intros [= <-]. simpl.
    assert (G0 : is_Some (macros (define guard [] (env s)) !! guard))
      by (simpl; rewrite lookup_insert_eq; eauto).
    eapply bring_keeps_guard in B1; [|exact K|rewrite header_direct_includes; left|exact G0].
    eapply bring_keeps_guard in B2;
      [|exact K|rewrite header_direct_includes; right; left|exact B1].
    eapply bring_keeps_guard in B3;
      [|exact K|rewrite header_direct_includes; do 2 right; left|exact B2].
    exact B3.
Qed.

Lemma include_times_guarded (lib : library) (n : nat) (s : tu_state) :
  is_Some (macros (env s) !! guard) -> include_times lib header n s = Some s.
Proof.
  intros G. induction n as [|n IH]; simpl; [reflexivity|].
  rewrite (run_header_guarded _ _ G). simpl. exact IH.
Qed.

(** C8.  Inclusion is idempotent: including the file two or more times in
    a row leaves the unit exactly as one inclusion does, provided the
    library headers it brings in leave its guard macro defined; every
    inclusion after the first finds the guard defined and skips the body. *)
Theorem header_inclusion_idempotent (lib : library) :
  keeps_guard lib ->
  forall (n : nat) (s : tu_state),
    include_times lib header (S (S n)) s = include_times lib header 1 s
    /\ (forall s', run_file lib header s = Some s' ->
                   run_file lib header s' = Some s').
Proof.
  intros K n s. split;
    [|intros s' E; apply run_header_guarded, (run_header_defines_guard _ _ _ K E)].
  change (include_times lib header (S (S n)) s)
    with (run_file lib header s ≫= include_times lib header (S n)).
  change (include_times lib header 1 s)
    with (run_file lib header s ≫= include_times lib header 0).
  destruct (run_file lib header s) as [s'|] eqn:E; simpl; [|reflexivity].
  pose proof (run_header_defines_guard _ _ _ K E) as G.
  rewrite (run_header_guarded _ _ G). simpl.
  apply include_times_guarded, G.
Qed.

Lemma demo_library_keeps_guard : keeps_guard demo_library.
Proof. intros h f e e' d _ _ G [= <- _]. exact G. Qed.

Lemma header_inclusion_idempotent_witness :
  include_times demo_library header 3 start = include_times demo_library header 1 start
  /\ (forall s', run_file demo_library header start = Some s' ->
                 run_file demo_library header s' = Some s').
Proof.
  apply (header_inclusion_idempotent demo_library demo_library_keeps_guard 1 start).
Defined.

(** ** The headers and the macro of the file *)

(** C9.  The headers the file includes directly are ghostty.h (by its
    relative path, quoted), libssh2.h and libssh2_sftp.h (bracketed), and no
    other; none of them is ghostty/vt.h, under either form, nor any file
    named vt.h. *)
Theorem header_includes_exactly :
  direct_includes header = [ghostty_h; libssh2_h; libssh2_sftp_h]
  /\ (list_to_set (direct_includes header) : gset hdr)
     = {[ Hdr Quoted "../Vendor/libghostty/include/ghostty.h";
          Hdr Angled "libssh2.h"; Hdr Angled "libssh2_sftp.h" ]}
  /\ (forall f : incl_form, Hdr f "ghostty/vt.h" ∉ direct_includes header)
  /\ Forall (fun h => ends_with "vt.h" (path h) = false) (direct_includes header).
Proof.
  rewrite header_direct_includes. split; [reflexivity|]. split; [|split].
  - unfold ghostty_h, libssh2_h, libssh2_sftp_h. set_solver.
  - intros f Hin. unfold ghostty_h, libssh2_h, libssh2_sftp_h in Hin.
    repeat (apply elem_of_cons in Hin as [Hin|Hin]; [discriminate Hin|]).
    now apply elem_of_nil in Hin.
  - repeat (apply Forall_cons; split; [reflexivity|]). apply Forall_nil. exact I.
Qed.

(** C10.  The file has one [#define], of its guard macro with an empty
    replacement list, and no [#undef].  Run with library headers that are
    empty, so that every change is the file's own, it leaves the macro table
    as it was when the guard is already defined, and otherwise with the one
    new entry that maps the guard to the empty token sequence. *)
Theorem header_defines_only_guard :
  macro_definitions header = [("ghostty_bridging_header_h", [])]
  /\ Forall (fun d => forall m, d <> DUndef m) (directives header)
  /\ (forall s : tu_state,
        macros ∘ env <$> run_file null_library header s
        = Some (if defined guard (env s) then macros (env s)
                else <[guard := []]> (macros (env s)))).
Proof.
  split; [|split].
  - rewrite header_parsed. reflexivity.
  - rewrite header_parsed. simpl.
    repeat (apply Forall_cons; split; [discriminate|]). apply Forall_nil. exact I.
  - intros s. destruct (run_header_null s) as (e' & -> & M). simpl. now rewrite M.
Qed.

(** ** Beyond the first inclusion: once-only import, a guard set beforehand,
    missing headers, and the header at the head of a unit *)

Lemma bring_agree (lib lib' : library) (f1 : string) (h : hdr) (e : pp_env) :
  locate lib' h = locate lib h ->
  locate lib h <> Some f1 ->
  (forall f e, f <> f1 -> content lib' f e = content lib f e) ->
  bring lib' false h e = bring lib false h e.
Proof.
  intros L N C. unfold bring. rewrite L.
  destruct (locate lib h) as [f|]; [|reflexivity].
  case_decide; [reflexivity|]. apply C. congruence.
Qed.

(** X1.  The once-only [#import] of line 14 follows the file.  When the
    file that ghostty.h resolves to was already entered in the unit, under
    whatever spelling, the header finds it but does not enter it again: the
    run does not depend on what the body of that file holds, and the unit
    gains symbols under libssh2.h and libssh2_sftp.h only.  (The two other
    names are taken to resolve to other files.) *)
Theorem header_skips_ghostty_already_entered
        (lib lib' : library) (s : tu_state) (f1 : string) :
  macros (env s) !! guard = None ->
  locate lib ghostty_h = Some f1 ->
  f1 ∈ seen (env s) ->
  locate lib libssh2_h <> Some f1 ->
  locate lib libssh2_sftp_h <> Some f1 ->
  (forall h, locate lib' h = locate lib h) ->
  (forall f e, f <> f1 -> content lib' f e = content lib f e) ->
  run_file lib' header s = run_file lib header s
  /\ (forall s', run_file lib header s = Some s' ->
        exists d2 d3,
          out s' = out s ++ (FromHeader libssh2_h <$> d2)
                         ++ (FromHeader libssh2_sftp_h <$> d3)).
Proof.
  intros G L1 S1 N2 N3 HL HC.
  assert (B : forall l : library,
             locate l ghostty_h = Some f1 ->
             include_header l true ghostty_h (TU (define guard [] (env s)) (out s))
             = Some (TU (mark_once f1 (define guard [] (env s))) (out s))).
  { intros l Ll. unfold include_header, bring. simpl. rewrite Ll.
    rewrite decide_True by exact S1. simpl. now rewrite app_nil_r. }
  split.
  - rewrite !(run_header_fresh _ _ G).
    rewrite (B lib L1), (B lib') by (rewrite HL; exact L1). simpl.
    unfold include_header. simpl.
    rewrite (bring_agree lib lib' f1) by (try apply HL; assumption).
    destruct (bring lib false libssh2_h _) as [[e2 d2]|]; simpl; [|reflexivity].
    rewrite (bring_agree lib lib' f1) by (try apply HL; assumption).
    reflexivity.
  - intros s'. rewrite (run_header_fresh _ _ G), (B lib L1). simpl.
    destruct (include_header lib false libssh2_h _) as [s2|] eqn:E2; simpl; [|discriminate].
    intros E3.
    apply include_header_out in E2 as [d2 H2]. apply include_header_out in E3 as [d3 H3].
    exists d2, d3. rewrite H3, H2. simpl. unfold tag. now rewrite <- app_assoc.
Qed.

Lemma header_skips_ghostty_already_entered_witness :
  run_file vendor_library header ghostty_entered
  = run_file vendor_library_broken header ghostty_entered.
Proof.
  apply (header_skips_ghostty_already_entered vendor_library_broken vendor_library
           ghostty_entered "Vendor/libghostty/include/ghostty.h").
  - reflexivity.
  - reflexivity.
  - simpl. apply elem_of_union_l, elem_of_singleton. reflexivity.
  - discriminate.
  - discriminate.
  - intros h. reflexivity.
  - intros f e Hf. simpl. now rewrite decide_False by exact Hf.
Defined.

(** X2.  A unit that defines the guard macro beforehand, with whatever
    replacement list, switches the header off: processing it succeeds and
    changes nothing, even in a build that has none of the three headers. *)
Theorem header_disabled_by_predefined_guard
        (lib : library) (e : pp_env) (o : list item) (body : list string) :
  run_file lib header (TU (define guard body e) o) = Some (TU (define guard body e) o)
  /\ run_file no_library header (TU (define guard body e) o)
     = Some (TU (define guard body e) o).
Proof.
  assert (G : is_Some (macros (env (TU (define guard body e) o)) !! guard))
    by (simpl; rewrite lookup_insert_eq; eauto).
  split; apply run_header_guarded, G.
Qed.

(** X3.  The header has no fallback for a missing library header.  When
    its guard is not yet defined and one of the three headers it names is
    absent from the build, processing the header fails, whatever the unit
    has done before. *)
Theorem header_fails_without_library (lib : library) (s : tu_state) (h : hdr) :
  macros (env s) !! guard = None ->
  h ∈ direct_includes header ->
  absent lib h ->
  run_file lib header s = None.
Proof.
  intros G Hh A. unfold absent in A.
  rewrite (run_header_fresh _ _ G). unfold include_header.
  rewrite header_direct_includes in Hh.
  assert (B : forall imp e, bring lib imp h e = None)
    by (intros imp e; unfold bring; now rewrite A).
  apply elem_of_cons in Hh as [->|Hh]; [|apply elem_of_cons in Hh as [->|Hh]].
  - rewrite B. reflexivity.
  - destruct (bring lib true ghostty_h _) as [[e1 d1]|]; simpl; [|reflexivity].
    rewrite B. reflexivity.
  - apply elem_of_cons in Hh as [->|Hh]; [|now apply elem_of_nil in Hh].
    destruct (bring lib true ghostty_h _) as [[e1 d1]|]; simpl; [|reflexivity].
    destruct (bring lib false libssh2_h e1) as [[e2 d2]|]; simpl; [|reflexivity].
    rewrite B. reflexivity.
Qed.

Lemma header_fails_without_library_witness :
  run_file library_without_sftp header start = None.
Proof.
  apply (header_fails_without_library library_without_sftp start libssh2_sftp_h).
  - reflexivity.
  - rewrite header_direct_includes. do 2 right. left.
  - reflexivity.
Defined.

(** X4.  The header at the head of a unit.  For every text [t], the text
    made of the header, a line feed and [t] is lexed as the lines of the
    header followed by the lines of [t] lexed on their own (the header
    leaves no comment and no string open); and processing it is processing
    the header and then [t] as a file of its own (the header leaves no
    conditional group open), whatever the library and the state. *)
Theorem header_at_head_of_unit (lib : library) (t : string) (s : tu_state) :
  parse_file (header_text +:+ nl +:+ t) = header ++ parse_file t
  /\ run_file lib (parse_file (header_text +:+ nl +:+ t)) s
     = run_file lib header s ≫= run_file lib (parse_file t).
Proof.
  split; [apply parse_file_after_header|].
  rewrite parse_file_after_header. apply run_file_after_header.
Qed.
